(** * MatrixSolveOp: the matrix-solve kernel of
      tensorflow/core/kernels/matrix_solve_op.cc

    A shallow embedding of the three methods of [MatrixSolveOp]:
    - [GetOutputMatrixShape] (the spec's ShapeResolver.resolve),
    - [GetCostPerUnit]       (the spec's CostEstimator.estimate),
    - [ComputeMatrix]        (the spec's SingleSolveKernel.solve),
    and the properties of the specification stated over them. *)

From Stdlib Require Import ZArith List String Bool Lia.
From Stdlib Require Import Floats.
Import ListNotations.

Local Open Scope string_scope.
Local Open Scope list_scope.
Local Open Scope Z_scope.

(* ================================================================== *)
(** ** 64-bit signed integers ([int64]) *)
(* ================================================================== *)

Module Int64.

Definition min_signed : Z := - 2 ^ 63.
Definition max_signed : Z := 2 ^ 63 - 1.

(** The values an [int64] holds. *)
Definition in_range (z : Z) : Prop := min_signed <= z <= max_signed.

(** Two's-complement wrap-around of a mathematical integer. *)
Definition wrap (z : Z) : Z := (z + 2 ^ 63) mod 2 ^ 64 - 2 ^ 63.

Definition add (a b : Z) : Z := wrap (a + b).
Definition mul (a b : Z) : Z := wrap (a * b).

(** [1LL << n] *)
Definition shl (a n : Z) : Z := wrap (Z.shiftl a n).

End Int64.

(** Modelled from the spec: the constant [kint32max] of
    tensorflow/core/platform/types.h, which is not among the sources; the
    spec's design notes call it the "kint32max-style saturation" constant.
    It is the largest 32-bit signed integer. *)
Definition kint32max : Z := 2 ^ 31 - 1.

(* ================================================================== *)
(** ** CHECK macros: a failed CHECK aborts the process *)
(* ================================================================== *)

(** A computation guarded by CHECK macros either yields its value or
    aborts on the first failed check; an abort is not a [Status] and is
    not handed back to the caller. *)
Inductive Checked (A : Type) : Type :=
  | Value (a : A)
  | CheckFailed (condition : string).
Arguments Value {A} a.
Arguments CheckFailed {A} condition.

Definition check_bind {A B} (c : Checked A) (k : A -> Checked B) : Checked B :=
  match c with
  | Value a => k a
  | CheckFailed s => CheckFailed s
  end.

Declare Scope checked_scope.
Delimit Scope checked_scope with checked.
Notation "x <- c ;; k" := (check_bind c (fun x => k))
  (at level 61, c at next level, right associativity) : checked_scope.
Notation "c ;; k" := (check_bind c (fun _ => k))
  (at level 61, right associativity) : checked_scope.

Definition CHECK (cond : bool) (text : string) : Checked unit :=
  if cond then Value tt else CheckFailed text.

(* ================================================================== *)
(** ** TensorShape *)
(* ================================================================== *)

(** Modelled from the spec: class [TensorShape] of
    tensorflow/core/framework/tensor_shape.h, which is not among the
    sources.  The spec's data model: a shape is "an ordered sequence of
    dimension sizes (non-negative integers)".  Reading or writing a
    dimension outside [0, dims()) fails a check. *)
Module TensorShape.

Definition t : Type := list Z.

Definition dims (s : t) : Z := Z.of_nat (List.length s).

Definition in_bounds (s : t) (d : Z) : bool := (0 <=? d) && (d <? dims s).

Definition dim_size (s : t) (d : Z) : Checked Z :=
  if in_bounds s d then Value (nth (Z.to_nat d) s 0)
  else CheckFailed "0 <= d < dims()".

Fixpoint update (s : t) (n : nat) (size : Z) : t :=
  match s, n with
  | [], _ => []
  | _ :: rest, O => size :: rest
  | x :: rest, S n' => x :: update rest n' size
  end.

Definition set_dim (s : t) (d : Z) (size : Z) : Checked t :=
  if in_bounds s d then Value (update s (Z.to_nat d) size)
  else CheckFailed "0 <= d < dims()".

(** Every dimension size is a non-negative [int64]. *)
Definition well_formed (s : t) : Prop :=
  Forall (fun d => 0 <= d <= Int64.max_signed) s.

End TensorShape.

(* ================================================================== *)
(** ** Status and the OP_REQUIRES protocol *)
(* ================================================================== *)

(** Modelled from the spec: [Status] and [errors::InvalidArgument] of
    tensorflow/core/lib/core, which are not among the sources.  The spec's
    [Result] "is success or a tagged failure". *)
Module error.
Inductive Code : Type := OK | INVALID_ARGUMENT.
End error.

Record Status : Type := mkStatus {
  code : error.Code;
  error_message : string
}.

Definition Status_OK : Status := mkStatus error.OK "".

Module errors.
Definition InvalidArgument (msg : string) : Status :=
  mkStatus error.INVALID_ARGUMENT msg.
End errors.

(** The failure tags of the spec's error taxonomy, and the statuses of the
    kernel that carry them. *)
Inductive SolveFailure : Type := ShapeMismatch | NotInvertible.

Definition failure_of (s : Status) : option SolveFailure :=
  match code s with
  | error.OK => None
  | error.INVALID_ARGUMENT =>
      if (error_message s =? "Input matrix must be square.")%string
         || (error_message s =? "Input matrix and rhs are incompatible.")%string
      then Some ShapeMismatch
      else if (error_message s =? "Input matrix is not invertible.")%string
      then Some NotInvertible
      else None
  end.

(* ================================================================== *)
(** ** Scalars and dense matrices *)
(* ================================================================== *)

(** The operations the kernel and the factorization use on the template
    parameter [Scalar] ([float] or [double]). *)
Class ScalarOps (Scalar : Type) : Type := {
  s_zero : Scalar;
  s_sub : Scalar -> Scalar -> Scalar;
  s_mul : Scalar -> Scalar -> Scalar;
  s_div : Scalar -> Scalar -> Scalar;
  s_abs : Scalar -> Scalar;
  s_ltb : Scalar -> Scalar -> bool;
  s_eqb : Scalar -> Scalar -> bool
}.

(** Modelled from the spec: Eigen's dense matrices (third_party/eigen3, not
    among the sources).  The spec's data model: "a dense, two-dimensional
    ... buffer of a floating-point scalar type, with rows and cols both
    >= 0".  The coefficients are kept row by row. *)
Module Eigen.
Section Dense.
Context {Scalar : Type} `{ScalarOps Scalar}.

Record Matrix : Type := mkMatrix {
  rows : nat;
  cols : nat;
  coeffs : list (list Scalar)
}.

Definition coeff (m : Matrix) (i j : nat) : Scalar :=
  nth j (nth i (coeffs m) []) s_zero.

(** [m.diagonal()] *)
Definition diagonal (m : Matrix) : list Scalar :=
  map (fun i => coeff m i i) (seq 0 (Nat.min (rows m) (cols m))).

(** [v.cwiseAbs()] *)
Definition cwiseAbs (v : list Scalar) : list Scalar := map s_abs v.

(** [v.minCoeff()]: the first coefficient, replaced by each later one
    that compares smaller.  Eigen asserts that [v] is not empty. *)
Definition minCoeff (v : list Scalar) : Scalar :=
  match v with
  | [] => s_zero
  | x :: rest =>
    fold_left (fun best y => if s_ltb y best then y else best) rest x
  end.

End Dense.
Arguments Matrix Scalar : clear implicits.

(** The interface of [Eigen::PartialPivLU<Matrix>] the kernel relies on:
    the constructor (which factorizes), [matrixLU()] and [solve()].  The
    properties of [ComputeMatrix] below hold for every implementation. *)
Class PartialPivLU (Scalar : Type) : Type := {
  LU : Type;
  compute : Matrix Scalar -> LU;
  matrixLU : LU -> Matrix Scalar;
  solve : LU -> Matrix Scalar -> Matrix Scalar
}.
End Eigen.

(* ================================================================== *)
(** ** A model of Eigen's partial-pivoting LU *)
(* ================================================================== *)

(** Modelled from the spec: [Eigen::PartialPivLU] (third_party/eigen3, not
    among the sources), after the spec's algorithm: "find permutation P,
    unit-lower-triangular L, and upper-triangular U such that P·A = L·U,
    selecting at each elimination step the pivot of largest absolute value
    in the active column", then "forward-substituting L·Y = P·B then
    back-substituting U·X = Y".  L (below the diagonal) and U are packed
    in one matrix, as [matrixLU()] returns them. *)
Module PartialPivLUModel.
Section Model.
Context {Scalar : Type} `{ScalarOps Scalar}.

Definition Row : Type := list Scalar.

Fixpoint set_nth {A : Type} (l : list A) (n : nat) (x : A) : list A :=
  match l, n with
  | [], _ => []
  | _ :: rest, O => x :: rest
  | y :: rest, S n' => y :: set_nth rest n' x
  end.

Definition swap_rows (m : list Row) (i j : nat) : list Row :=
  set_nth (set_nth m i (nth j m [])) j (nth i m []).

(** Position of the first largest score, scanning from position [i]. *)
Fixpoint argmax_from (best : Scalar) (besti i : nat) (l : list Scalar) : nat :=
  match l with
  | [] => besti
  | x :: rest =>
      if s_ltb best x then argmax_from x i (S i) rest
      else argmax_from best besti (S i) rest
  end.

Definition argmax (l : list Scalar) : nat :=
  match l with
  | [] => O
  | x :: rest => argmax_from x O 1%nat rest
  end.

Definition mapi {A B : Type} (f : nat -> A -> B) (l : list A) : list B :=
  map (fun p => f (fst p) (snd p)) (combine (seq 0 (List.length l)) l).

(** Row [r] below the pivot row of step [k]: its entry in column [k]
    becomes the multiplier (divided by the pivot unless the pivot is an
    exact zero), and the multiple of the pivot row is subtracted to the
    right of column [k]. *)
Definition eliminate (k : nat) (pivot_row : Row) (nonzero : bool) (r : Row) : Row :=
  let l := if nonzero then s_div (nth k r s_zero) (nth k pivot_row s_zero)
           else nth k r s_zero in
  mapi (fun j x =>
          if (j <? k)%nat then x
          else if (j =? k)%nat then l
          else s_sub x (s_mul l (nth j pivot_row s_zero))) r.

(** Elimination step [k] on the packed factors and the transpositions. *)
Definition lu_step (st : list Row * list nat) (k : nat) : list Row * list nat :=
  let (lu, transpositions) := st in
  let scores := map (fun r => s_abs (nth k r s_zero)) (skipn k lu) in
  let p := (k + argmax scores)%nat in
  let nonzero := negb (s_eqb (nth (argmax scores) scores s_zero) s_zero) in
  let lu1 := if nonzero then swap_rows lu k p else lu in
  let pivot_row := nth k lu1 [] in
  (firstn (S k) lu1 ++ map (eliminate k pivot_row nonzero) (skipn (S k) lu1),
   transpositions ++ [p]).

Record Factorization : Type := mkFactorization {
  packed : Eigen.Matrix Scalar;
  row_transpositions : list nat
}.

Definition factorize (m : Eigen.Matrix Scalar) : Factorization :=
  let size := Nat.min (Eigen.rows m) (Eigen.cols m) in
  let (lu, tr) := fold_left lu_step (seq 0 size) (Eigen.coeffs m, []) in
  mkFactorization (Eigen.mkMatrix (Eigen.rows m) (Eigen.cols m) lu) tr.

Definition row_sub (a b : Row) : Row :=
  map (fun p => s_sub (fst p) (snd p)) (combine a b).

Definition row_scale (c : Scalar) (a : Row) : Row := map (s_mul c) a.

(** [acc - sum_j lu(i,j) * v_j] over the rows [v_j] numbered from [j0]. *)
Definition subtract_combination (lu : Eigen.Matrix Scalar) (i j0 : nat)
    (vs : list Row) (acc : Row) : Row :=
  fold_left (fun a p => row_sub a (row_scale (Eigen.coeff lu i (fst p)) (snd p)))
            (combine (seq j0 (List.length vs)) vs) acc.

(** L·Y = P·B, rows of Y from the first to the last. *)
Definition forward (lu : Eigen.Matrix Scalar) (b : list Row) : list Row :=
  fold_left (fun ys p => ys ++ [subtract_combination lu (fst p) 0 ys (snd p)])
            (combine (seq 0 (List.length b)) b) [].

(** U·X = Y, rows of X from the last to the first. *)
Definition backward (lu : Eigen.Matrix Scalar) (y : list Row) : list Row :=
  fold_right (fun p xs =>
                let i := fst p in
                map (fun v => s_div v (Eigen.coeff lu i i))
                    (subtract_combination lu i (S i) xs (snd p)) :: xs)
             [] (combine (seq 0 (List.length y)) y).

Definition permute (transpositions : list nat) (b : list Row) : list Row :=
  fold_left (fun rows p => swap_rows rows (fst p) (snd p))
            (combine (seq 0 (List.length transpositions)) transpositions) b.

Definition solve (f : Factorization) (rhs : Eigen.Matrix Scalar)
  : Eigen.Matrix Scalar :=
  Eigen.mkMatrix (Eigen.cols (packed f)) (Eigen.cols rhs)
    (backward (packed f)
       (forward (packed f) (permute (row_transpositions f) (Eigen.coeffs rhs)))).

#[export] Instance model : Eigen.PartialPivLU Scalar := {
  Eigen.LU := Factorization;
  Eigen.compute := factorize;
  Eigen.matrixLU := packed;
  Eigen.solve := solve
}.

End Model.
End PartialPivLUModel.
#[global] Existing Instance PartialPivLUModel.model.

(** [Scalar = double]: IEEE 754 binary64, as Rocq's primitive floats. *)
#[export] Instance double_ops : ScalarOps float := {
  s_zero := PrimFloat.zero;
  s_sub := PrimFloat.sub;
  s_mul := PrimFloat.mul;
  s_div := PrimFloat.div;
  s_abs := PrimFloat.abs;
  s_ltb := PrimFloat.ltb;
  s_eqb := PrimFloat.eqb
}.

(* ================================================================== *)
(** ** Kernel computations: output buffer, effects, early return *)
(* ================================================================== *)

(** What a kernel call does besides returning: the calls it makes into
    Eigen and the assignment to the mapped output. *)
Inductive Event : Type :=
  | EvFactorize     (* Eigen::PartialPivLU<Matrix> constructed *)
  | EvSolve         (* lu_decomposition.solve(rhs) evaluated *)
  | EvAssignOutput. (* *output = ... *)

Section KernelMonad.
Context {Scalar : Type}.

(** The state a call of [ComputeMatrix] acts on: the matrix mapped by
    [MatrixMap* output] and the log of its effects. *)
Record World : Type := mkWorld {
  output : Eigen.Matrix Scalar;
  trace : list Event
}.

(** A statement either falls through to the next one or returns from
    the function, leaving a status in the context. *)
Inductive Flow (A : Type) : Type :=
  | Next (a : A)
  | Return (s : Status).

Definition Op (A : Type) : Type := World -> Flow A * World.

Definition op_ret {A} (a : A) : Op A := fun w => (Next A a, w).

Definition op_bind {A B} (c : Op A) (k : A -> Op B) : Op B :=
  fun w =>
    match c w with
    | (Next _ a, w') => k a w'
    | (Return _ s, w') => (Return B s, w')
    end.

(** Modelled from the spec: the macro [OP_REQUIRES(context, cond, status)]
    of tensorflow/core/framework/op_kernel.h, which is not among the
    sources: when [cond] is false the call fails with [status] and
    returns at once ("all failures are returned as explicit per-call
    results"). *)
Definition OP_REQUIRES (cond : bool) (s : Status) : Op unit :=
  fun w => if cond then (Next unit tt, w) else (Return unit s, w).

(** A plain [return;]: the context keeps its OK status. *)
Definition op_return {A} : Op A := fun w => (Return A Status_OK, w).

Definition log (e : Event) : Op unit :=
  fun w => (Next unit tt, mkWorld (output w) (trace w ++ [e])).

(** [*output = x] *)
Definition assign_output (x : Eigen.Matrix Scalar) : Op unit :=
  fun w => (Next unit tt, mkWorld x (trace w ++ [EvAssignOutput])).

(** Running a [void] kernel method: the status it leaves and the world. *)
Definition run (c : Op unit) (w : World) : Status * World :=
  match c w with
  | (Next _ _, w') => (Status_OK, w')
  | (Return _ s, w') => (s, w')
  end.

End KernelMonad.
Arguments World Scalar : clear implicits.
Arguments Op Scalar A : clear implicits.

Declare Scope op_scope.
Delimit Scope op_scope with op.
Notation "x <- c ;; k" := (op_bind c (fun x => k))
  (at level 61, c at next level, right associativity) : op_scope.
Notation "c ;; k" := (op_bind c (fun _ => k))
  (at level 61, right associativity) : op_scope.

(* ================================================================== *)
(** ** MatrixSolveOp *)
(* ================================================================== *)

Module MatrixSolveOp.

Import TensorShape.
Local Open Scope checked_scope.

(** [TensorShape GetOutputMatrixShape(input_matrix_shape, rhs_matrix_shape)] *)
Definition GetOutputMatrixShape
    (input_matrix_shape rhs_matrix_shape : TensorShape.t)
  : Checked TensorShape.t :=
  CHECK (dims input_matrix_shape =? dims rhs_matrix_shape)
        "input_matrix_shape.dims() == rhs_matrix_shape.dims()" ;;
  let output_matrix_shape := input_matrix_shape in
  size <- dim_size rhs_matrix_shape (dims output_matrix_shape - 1) ;;
  set_dim output_matrix_shape (dims output_matrix_shape - 1) size.

(** [int64 GetCostPerUnit(input_matrix_shape, rhs_matrix_shape)] *)
Definition GetCostPerUnit
    (input_matrix_shape rhs_matrix_shape : TensorShape.t) : Checked Z :=
  rows <- dim_size input_matrix_shape 0 ;;
  rhss <- dim_size rhs_matrix_shape 1 ;;
  if rows >? Int64.shl 1 20 then
    (* A big number to cap the cost in case overflow. *)
    Value kint32max
  else
    Value (Int64.mul (Int64.mul rows rows) (Int64.add rows rhss)).

(** The product of [GetCostPerUnit] over the mathematical integers. *)
Definition exact_cost (rows rhss : Z) : Z := rows * rows * (rows + rhss).

Section Kernel.
Context {Scalar : Type} `{ScalarOps Scalar} `{Eigen.PartialPivLU Scalar}.
Local Open Scope op_scope.

Local Abbreviation Matrix := (Eigen.Matrix Scalar).

(** [Eigen::PartialPivLU<Matrix> lu_decomposition(matrix);] *)
Definition lu_decomposition (matrix : Matrix) : Op Scalar Eigen.LU :=
  log EvFactorize ;; op_ret (Eigen.compute matrix).

(** [lu_decomposition.solve(rhs)] *)
Definition lu_solve (lu : Eigen.LU) (rhs : Matrix) : Op Scalar Matrix :=
  log EvSolve ;; op_ret (Eigen.solve lu rhs).

(** [lu_decomposition.matrixLU().diagonal().cwiseAbs().minCoeff()] *)
Definition min_abs_pivot_of (lu : Eigen.LU) : Scalar :=
  Eigen.minCoeff (Eigen.cwiseAbs (Eigen.diagonal (Eigen.matrixLU lu))).

Definition ComputeMatrix_body (matrix rhs : Matrix) : Op Scalar unit :=
  OP_REQUIRES (Eigen.rows matrix =? Eigen.cols matrix)%nat
    (errors.InvalidArgument "Input matrix must be square.") ;;
  OP_REQUIRES (Eigen.rows matrix =? Eigen.rows rhs)%nat
    (errors.InvalidArgument "Input matrix and rhs are incompatible.") ;;
  (if (Eigen.rows matrix =? 0)%nat then
     (* To be consistent with the MatrixInverse op, we define the
        solution for an empty set of equation is the empty matrix. *)
     op_return
   else op_ret tt) ;;
  lu <- lu_decomposition matrix ;;
  let min_abs_pivot := min_abs_pivot_of lu in
  OP_REQUIRES (s_ltb s_zero min_abs_pivot)
    (errors.InvalidArgument "Input matrix is not invertible.") ;;
  x <- lu_solve lu rhs ;;
  assign_output x.

(** [void ComputeMatrix(context, matrix, rhs, output)]: the status the
    call leaves in [context], the output matrix and the effects. *)
Definition ComputeMatrix (matrix rhs : Matrix) (w : World Scalar)
  : Status * World Scalar :=
  run (ComputeMatrix_body matrix rhs) w.

(** The pivot the singularity check of [ComputeMatrix] looks at. *)
Definition min_abs_pivot (matrix : Matrix) : Scalar :=
  min_abs_pivot_of (Eigen.compute matrix).

End Kernel.

End MatrixSolveOp.

(** The statuses of the three OP_REQUIRES of [ComputeMatrix]. *)
Definition not_square : Status :=
  errors.InvalidArgument "Input matrix must be square.".
Definition incompatible : Status :=
  errors.InvalidArgument "Input matrix and rhs are incompatible.".
Definition not_invertible : Status :=
  errors.InvalidArgument "Input matrix is not invertible.".

(* ================================================================== *)
(** ** Concrete systems over [double] *)
(* ================================================================== *)

Module Samples.

Definition matrix_of (d : list (list float)) : Eigen.Matrix float :=
  Eigen.mkMatrix (List.length d) (List.length (hd [] d)) d.

(** An output matrix of the given shape, every coefficient [v], before
    the call has had any effect. *)
Definition filled (r c : nat) (v : float) : World float :=
  mkWorld (Eigen.mkMatrix r c (repeat (repeat v c) r)) [].

(** The output matrix as the caller allocates it. *)
Definition fresh (r c : nat) : World float := filled r c PrimFloat.zero.

(** The systems of the spec's concrete scenario. *)
Definition two_I : Eigen.Matrix float := matrix_of [[2; 0]; [0; 2]]%float.
Definition b_4_6 : Eigen.Matrix float := matrix_of [[4]; [6]]%float.
Definition a_1234 : Eigen.Matrix float := matrix_of [[1; 2]; [3; 4]]%float.
Definition identity2 : Eigen.Matrix float := matrix_of [[1; 0]; [0; 1]]%float.
Definition zero2 : Eigen.Matrix float := matrix_of [[0; 0]; [0; 0]]%float.
Definition ones_2x1 : Eigen.Matrix float := matrix_of [[1]; [1]]%float.
Definition a_0101 : Eigen.Matrix float := matrix_of [[0; 1]; [0; 1]]%float.

(** [[3, 1], [1, fl(1/3)]], the last entry being 1/3 rounded to double. *)
Definition near_singular : Eigen.Matrix float :=
  matrix_of [[3; 1]; [1; 1 / 3]]%float.





(** A 3 x 2 matrix and right-hand sides with three rows. *)
Definition a_3x2 : Eigen.Matrix float :=
  matrix_of [[1; 2]; [3; 4]; [5; 6]]%float.
Definition ones_3x1 : Eigen.Matrix float := matrix_of [[1]; [1]; [1]]%float.

(** Matrices without rows. *)
Definition empty (c : nat) : Eigen.Matrix float := Eigen.mkMatrix 0 c [].

(** Entrywise [|x - y| < tol]. *)
Definition close_to (tol : float) (x y : Eigen.Matrix float) : bool :=
  (Eigen.rows x =? Eigen.rows y)%nat && (Eigen.cols x =? Eigen.cols y)%nat
  && forallb (fun rs =>
       forallb (fun p => PrimFloat.ltb (PrimFloat.abs (PrimFloat.sub (fst p) (snd p))) tol)
               (combine (fst rs) (snd rs)))
     (combine (Eigen.coeffs x) (Eigen.coeffs y)).

End Samples.

(* ================================================================== *)
(** * Properties *)
(* ================================================================== *)

(** ** Integer facts *)

(** Goals and hypotheses about the bounds of [int64], by arithmetic. *)
Ltac int64_bounds :=
  unfold Int64.in_range, Int64.min_signed, Int64.max_signed in *; lia.

Lemma wrap_in_range (z : Z) : Int64.in_range z -> Int64.wrap z = z.
Proof.
  intros Hz. unfold Int64.wrap. rewrite Z.mod_small; int64_bounds.
Qed.

Lemma threshold_value : Int64.shl 1 20 = 2 ^ 20.
Proof. reflexivity. Qed.

(** ** TensorShape facts *)

Section ShapeFacts.
Import TensorShape.

Lemma dims_nonneg (s : TensorShape.t) : 0 <= dims s.
Proof. unfold dims. lia. Qed.

Lemma dims_cons (x : Z) (s : TensorShape.t) : dims (x :: s) = dims s + 1.
Proof. unfold dims. cbn [List.length]. lia. Qed.

Lemma update_length (s : TensorShape.t) (n : nat) (v : Z) :
  List.length (update s n v) = List.length s.
Proof.
  revert n. induction s as [|x s IH]; intros [|n]; cbn; auto.
Qed.

Lemma update_cons_S (x : Z) (s : TensorShape.t) (n : nat) (v : Z) :
  update (x :: s) (S n) v = x :: update s n v.
Proof. reflexivity. Qed.

Lemma update_last (s : TensorShape.t) (v : Z) :
  s <> [] -> update s (List.length s - 1) v = removelast s ++ [v].
Proof.
  induction s as [|x s IH]; intros Hne; [congruence|].
  destruct s as [|y s].
  - reflexivity.
  - replace (List.length (x :: y :: s) - 1)%nat
      with (S (List.length (y :: s) - 1))%nat by (cbn [List.length]; lia).
    rewrite update_cons_S, IH by discriminate. reflexivity.
Qed.

Lemma update_nth_same (s : TensorShape.t) (n : nat) (v : Z) :
  (n < List.length s)%nat -> nth n (update s n v) 0 = v.
Proof.
  revert n. induction s as [|x s IH]; intros [|n] Hn; cbn in *; try lia; auto.
  apply IH. lia.
Qed.

Lemma update_nth_other (s : TensorShape.t) (n m : nat) (v : Z) :
  n <> m -> nth m (update s n v) 0 = nth m s 0.
Proof.
  revert n m. induction s as [|x s IH]; intros [|n] [|m] Hnm; cbn; auto.
  congruence.
Qed.

Lemma nth_last (s : TensorShape.t) :
  nth (List.length s - 1) s 0 = last s 0.
Proof.
  induction s as [|x s IH]; [reflexivity|].
  destruct s as [|y s]; [reflexivity|].
  replace (List.length (x :: y :: s) - 1)%nat
    with (S (List.length (y :: s) - 1))%nat by (cbn [List.length]; lia).
  change (nth (S ?n) (x :: ?l) 0) with (nth n l 0).
  rewrite IH. reflexivity.
Qed.

Lemma in_bounds_true (s : TensorShape.t) (d : Z) :
  0 <= d < dims s -> in_bounds s d = true.
Proof.
  intros Hd. unfold in_bounds.
  apply andb_true_intro. split; [apply Z.leb_le | apply Z.ltb_lt]; lia.
Qed.

Lemma dim_size_in_bounds (s : TensorShape.t) (d : Z) :
  0 <= d < dims s -> dim_size s d = Value (nth (Z.to_nat d) s 0).
Proof. intros Hd. unfold dim_size. rewrite in_bounds_true; auto. Qed.

End ShapeFacts.

(* ================================================================== *)
(** ** ShapeResolver: [GetOutputMatrixShape] *)
(* ================================================================== *)

Section ShapeResolver.
Import TensorShape MatrixSolveOp.

Lemma shape_nonempty (s : TensorShape.t) : 0 < dims s -> s <> [].
Proof. intros Hd ->. unfold dims in Hd. cbn in Hd. lia. Qed.

Lemma last_index (s : TensorShape.t) :
  0 < dims s -> Z.to_nat (dims s - 1) = (List.length s - 1)%nat.
Proof. unfold dims. lia. Qed.

(** C8: for two shapes with the same number of dimensions (at least one, so
    that there is a last dimension), [GetOutputMatrixShape] returns the
    input shape with its last dimension replaced by the last dimension of
    the rhs shape: same number of dimensions, every leading dimension that
    of the input, the last one that of the rhs.  The result is a function
    of the two shapes alone: the embedding takes no other argument and no
    state. *)
Theorem GetOutputMatrixShape_replaces_last_dim
    (input_matrix_shape rhs_matrix_shape : TensorShape.t) :
  dims input_matrix_shape = dims rhs_matrix_shape ->
  0 < dims input_matrix_shape ->
  exists out : TensorShape.t,
    GetOutputMatrixShape input_matrix_shape rhs_matrix_shape = Value out
    /\ out = removelast input_matrix_shape ++ [last rhs_matrix_shape 0]
    /\ dims out = dims input_matrix_shape
    /\ (forall d, 0 <= d < dims input_matrix_shape - 1 ->
                  dim_size out d = dim_size input_matrix_shape d)
    /\ dim_size out (dims out - 1)
       = dim_size rhs_matrix_shape (dims rhs_matrix_shape - 1).
Proof.
  intros Hdims Hpos.
  set (n := dims input_matrix_shape) in *.
  assert (Hrhs : dim_size rhs_matrix_shape (n - 1)
                 = Value (last rhs_matrix_shape 0)).
  { rewrite dim_size_in_bounds by lia.
    rewrite Hdims, last_index by lia. now rewrite nth_last. }
  assert (Hlen : dims (update input_matrix_shape (Z.to_nat (n - 1))
                         (last rhs_matrix_shape 0)) = n).
  { unfold dims. now rewrite update_length. }
  exists (update input_matrix_shape (Z.to_nat (n - 1)) (last rhs_matrix_shape 0)).
  split; [|split; [|split; [|split]]].
  - unfold GetOutputMatrixShape, CHECK. fold n.
    rewrite Hdims, Z.eqb_refl. cbn [check_bind]. rewrite <- Hdims, Hrhs.
    cbn [check_bind]. unfold set_dim. fold n.
    now rewrite in_bounds_true by lia.
  - unfold n. rewrite last_index by assumption.
    apply update_last. now apply shape_nonempty.
  - exact Hlen.
  - intros d Hd.
    rewrite !dim_size_in_bounds by lia.
    rewrite update_nth_other; [reflexivity | lia].
  - rewrite Hlen, <- Hdims. fold n. rewrite Hrhs.
    rewrite dim_size_in_bounds by lia.
    rewrite update_nth_same; [reflexivity|].
    unfold n, dims in *. lia.
Qed.

(** The batched shapes [5,3,3] and [5,3,7] resolve to [5,3,7]. *)
Lemma GetOutputMatrixShape_replaces_last_dim_witness :
  exists out : TensorShape.t,
    GetOutputMatrixShape [5; 3; 3] [5; 3; 7] = Value out
    /\ out = removelast [5; 3; 3] ++ [last [5; 3; 7] 0]
    /\ dims out = dims [5; 3; 3]
    /\ (forall d, 0 <= d < dims [5; 3; 3] - 1 ->
                  dim_size out d = dim_size [5; 3; 3] d)
    /\ dim_size out (dims out - 1) = dim_size [5; 3; 7] (dims [5; 3; 7] - 1).
Proof.
  apply (GetOutputMatrixShape_replaces_last_dim [5; 3; 3] [5; 3; 7]).
  - reflexivity.
  - reflexivity.
Defined.

(** C9: when the two shapes differ in their number of dimensions,
    [GetOutputMatrixShape] fails the check on the dimension counts: the
    call aborts on the violated precondition, and returns neither a shape
    nor a [Status] the caller could recover from. *)
Theorem GetOutputMatrixShape_dims_mismatch
    (input_matrix_shape rhs_matrix_shape : TensorShape.t) :
  dims input_matrix_shape <> dims rhs_matrix_shape ->
  GetOutputMatrixShape input_matrix_shape rhs_matrix_shape
  = CheckFailed "input_matrix_shape.dims() == rhs_matrix_shape.dims()"
  /\ forall out, GetOutputMatrixShape input_matrix_shape rhs_matrix_shape
                 <> Value out.
Proof.
  intros Hne.
  assert (H : GetOutputMatrixShape input_matrix_shape rhs_matrix_shape
              = CheckFailed "input_matrix_shape.dims() == rhs_matrix_shape.dims()").
  { unfold GetOutputMatrixShape, CHECK.
    apply Z.eqb_neq in Hne. now rewrite Hne. }
  split; [exact H|]. intros out. rewrite H. discriminate.
Qed.

(** A matrix shape [3,3] against a batched rhs shape [5,3,7]. *)
Lemma GetOutputMatrixShape_dims_mismatch_witness :
  GetOutputMatrixShape [3; 3] [5; 3; 7]
  = CheckFailed "input_matrix_shape.dims() == rhs_matrix_shape.dims()"
  /\ forall out, GetOutputMatrixShape [3; 3] [5; 3; 7] <> Value out.
Proof.
  apply (GetOutputMatrixShape_dims_mismatch [3; 3] [5; 3; 7]).
  vm_compute. discriminate.
Defined.

End ShapeResolver.

(* ================================================================== *)
(** ** CostEstimator: [GetCostPerUnit] *)
(* ================================================================== *)

Section CostEstimator.
Import TensorShape MatrixSolveOp.

(** The two branches of [GetCostPerUnit], with [rows] and [rhss] read off
    the shapes. *)
Lemma GetCostPerUnit_branches
    (input_matrix_shape rhs_matrix_shape : TensorShape.t) (rows rhss : Z) :
  dim_size input_matrix_shape 0 = Value rows ->
  dim_size rhs_matrix_shape 1 = Value rhss ->
  GetCostPerUnit input_matrix_shape rhs_matrix_shape
  = Value (if rows >? 2 ^ 20 then kint32max
           else Int64.mul (Int64.mul rows rows) (Int64.add rows rhss)).
Proof.
  intros Hrows Hrhss. unfold GetCostPerUnit.
  rewrite Hrows, Hrhss. cbn [check_bind]. rewrite threshold_value.
  now destruct (rows >? 2 ^ 20).
Qed.

(** Above the threshold the estimate is the constant [kint32max]. *)
Lemma GetCostPerUnit_saturates
    (input_matrix_shape rhs_matrix_shape : TensorShape.t) (rows rhss : Z) :
  dim_size input_matrix_shape 0 = Value rows ->
  dim_size rhs_matrix_shape 1 = Value rhss ->
  2 ^ 20 < rows ->
  GetCostPerUnit input_matrix_shape rhs_matrix_shape = Value kint32max.
Proof.
  intros Hrows Hrhss Hbig.
  rewrite (GetCostPerUnit_branches _ _ rows rhss) by assumption.
  apply Z.gtb_lt in Hbig. now rewrite Hbig.
Qed.

(** Up to the threshold, and as long as the product fits in an [int64],
    the estimate is [rows * rows * (rows + rhss)]. *)
Lemma GetCostPerUnit_exact
    (input_matrix_shape rhs_matrix_shape : TensorShape.t) (rows rhss : Z) :
  dim_size input_matrix_shape 0 = Value rows ->
  dim_size rhs_matrix_shape 1 = Value rhss ->
  0 <= rows <= 2 ^ 20 ->
  0 <= rhss ->
  exact_cost rows rhss <= Int64.max_signed ->
  GetCostPerUnit input_matrix_shape rhs_matrix_shape
  = Value (exact_cost rows rhss).
Proof.
  intros Hrows Hrhss Hr Hc Hfit.
  rewrite (GetCostPerUnit_branches _ _ rows rhss) by assumption.
  replace (rows >? 2 ^ 20) with false
    by (symmetry; rewrite Z.gtb_ltb; apply Z.ltb_ge; lia).
  f_equal. unfold exact_cost, Int64.max_signed in *. unfold Int64.mul, Int64.add.
  assert (Hsq : 0 <= rows * rows <= 2 ^ 40) by nia.
  rewrite (wrap_in_range (rows * rows)) by int64_bounds.
  destruct (Z.eq_dec rows 0) as [-> | Hnz].
  - rewrite !Z.mul_0_l. reflexivity.
  - assert (Hsum : rows + rhss <= rows * rows * (rows + rhss)) by nia.
    assert (Hpos : 0 <= rows * rows * (rows + rhss)) by nia.
    rewrite (wrap_in_range (rows + rhss)) by int64_bounds.
    apply wrap_in_range. int64_bounds.
Qed.

(** Below the threshold, and without overflow, a larger [rows] never costs
    less. *)
Lemma GetCostPerUnit_monotone_below_threshold
    (in1 in2 rhs1 rhs2 : TensorShape.t) (rows1 rows2 rhss cost1 cost2 : Z) :
  dim_size in1 0 = Value rows1 -> dim_size rhs1 1 = Value rhss ->
  dim_size in2 0 = Value rows2 -> dim_size rhs2 1 = Value rhss ->
  0 <= rows1 <= rows2 -> rows2 <= 2 ^ 20 -> 0 <= rhss ->
  exact_cost rows2 rhss <= Int64.max_signed ->
  GetCostPerUnit in1 rhs1 = Value cost1 ->
  GetCostPerUnit in2 rhs2 = Value cost2 ->
  cost1 <= cost2.
Proof.
  intros H1 H1' H2 H2' Hle Hcap Hc Hfit Hc1 Hc2.
  assert (Hmono : exact_cost rows1 rhss <= exact_cost rows2 rhss).
  { unfold exact_cost. apply Z.mul_le_mono_nonneg; nia. }
  rewrite (GetCostPerUnit_exact _ _ rows1 rhss) in Hc1 by (auto; lia).
  rewrite (GetCostPerUnit_exact _ _ rows2 rhss) in Hc2 by (auto; lia).
  injection Hc1 as <-. injection Hc2 as <-. exact Hmono.
Qed.

(** C2 (fails on the code): the estimate is not monotone in [rows].  A
    1291 x 1291 system with one right-hand side costs 2153351852 and a
    2^20 x 2^20 one costs 2^40 * (2^20 + 1), but one more row, 2^20 + 1,
    returns the saturation value [kint32max] = 2147483647, which is below
    both. *)
Theorem GetCostPerUnit_drops_at_threshold :
  GetCostPerUnit [1291; 1291] [1291; 1] = Value 2153351852
  /\ GetCostPerUnit [2 ^ 20; 2 ^ 20] [2 ^ 20; 1] = Value (2 ^ 40 * (2 ^ 20 + 1))
  /\ GetCostPerUnit [2 ^ 20 + 1; 2 ^ 20 + 1] [2 ^ 20 + 1; 1] = Value kint32max
  /\ kint32max < 2153351852
  /\ kint32max < 2 ^ 40 * (2 ^ 20 + 1).
Proof. repeat split. Qed.

(** C3 (fails on the code): above the threshold the estimate is
    [kint32max] = 2^31 - 1, which is not the largest value of the 64-bit
    cost: it is below [Int64.max_signed], and below the cost
    1291 * 1291 * (1291 + 1) that the other branch returns. *)
Theorem GetCostPerUnit_cap_is_not_maximal :
  GetCostPerUnit [2 ^ 20 + 1; 2 ^ 20 + 1] [2 ^ 20 + 1; 1] = Value (2 ^ 31 - 1)
  /\ 2 ^ 31 - 1 < Int64.max_signed
  /\ GetCostPerUnit [1291; 1291] [1291; 1] = Value (exact_cost 1291 1)
  /\ 2 ^ 31 - 1 < exact_cost 1291 1.
Proof. repeat split. Qed.

(** C4 (fails on the code): the threshold on [rows] does not keep the
    product inside [int64].  For the well-formed shapes with rows = 2^20
    and rhss = 2^23 the product is 9 * 2^60, above [Int64.max_signed]; the
    wrapped value the code returns is negative. *)
Theorem GetCostPerUnit_overflows :
  well_formed [2 ^ 20; 2 ^ 20]
  /\ well_formed [2 ^ 20; 2 ^ 23]
  /\ Int64.max_signed < exact_cost (2 ^ 20) (2 ^ 23)
  /\ GetCostPerUnit [2 ^ 20; 2 ^ 20] [2 ^ 20; 2 ^ 23]
     = Value (- 8070450532247928832)
  /\ - 8070450532247928832 < 0.
Proof.
  split; [|split]; [repeat constructor; int64_bounds ..|].
  repeat split.
Qed.

End CostEstimator.

(* ================================================================== *)
(** ** SingleSolveKernel: [ComputeMatrix] *)
(* ================================================================== *)

Section SolveKernel.
Context {Scalar : Type} `{ScalarOps Scalar} `{Eigen.PartialPivLU Scalar}.
Import MatrixSolveOp.

Local Abbreviation Matrix := (Eigen.Matrix Scalar).

(** The five ways through [ComputeMatrix], in the order of its tests. *)
Lemma ComputeMatrix_cases (matrix rhs : Matrix) (w : World Scalar) :
  ComputeMatrix matrix rhs w =
  if negb (Eigen.rows matrix =? Eigen.cols matrix)%nat then (not_square, w)
  else if negb (Eigen.rows matrix =? Eigen.rows rhs)%nat then (incompatible, w)
  else if (Eigen.rows matrix =? 0)%nat then (Status_OK, w)
  else if s_ltb s_zero (min_abs_pivot matrix) then
    (Status_OK,
     mkWorld (Eigen.solve (Eigen.compute matrix) rhs)
             (trace w ++ [EvFactorize; EvSolve; EvAssignOutput]))
  else (not_invertible, mkWorld (output w) (trace w ++ [EvFactorize])).
Proof.
  destruct w as [out tr].
  unfold ComputeMatrix, run, ComputeMatrix_body, op_bind, OP_REQUIRES.
  destruct (Eigen.rows matrix =? Eigen.cols matrix)%nat; [|reflexivity].
  destruct (Eigen.rows matrix =? Eigen.rows rhs)%nat; [|reflexivity].
  destruct (Eigen.rows matrix =? 0)%nat; [reflexivity|].
  cbn [negb op_ret op_return lu_decomposition lu_solve log op_bind
       assign_output output trace].
  unfold lu_decomposition, lu_solve, op_bind, log, op_ret, assign_output.
  cbn [output trace]. fold (min_abs_pivot matrix).
  destruct (s_ltb s_zero (min_abs_pivot matrix)); [|reflexivity].
  cbn [trace]. now rewrite <- !app_assoc.
Qed.

(** When every test passes the kernel factorizes once, solves once and
    assigns the solution to the output. *)
Lemma ComputeMatrix_solves (matrix rhs : Matrix) (w : World Scalar) :
  Eigen.rows matrix = Eigen.cols matrix ->
  Eigen.rows matrix = Eigen.rows rhs ->
  Eigen.rows matrix <> 0%nat ->
  s_ltb s_zero (min_abs_pivot matrix) = true ->
  ComputeMatrix matrix rhs w
  = (Status_OK,
     mkWorld (Eigen.solve (Eigen.compute matrix) rhs)
             (trace w ++ [EvFactorize; EvSolve; EvAssignOutput])).
Proof.
  intros Hsq Hrows Hne Hpos. rewrite ComputeMatrix_cases.
  apply Nat.eqb_eq in Hsq, Hrows. apply Nat.eqb_neq in Hne.
  now rewrite Hsq, Hrows, Hne, Hpos.
Qed.

(** C5: if [matrix] is not square, or its row count differs from that of
    [rhs], [ComputeMatrix] fails with a ShapeMismatch status; the output
    matrix is left as it was and the call has no effect at all: neither
    factorization nor solve was started and nothing was assigned. *)
Theorem ComputeMatrix_shape_mismatch (matrix rhs : Matrix) (w : World Scalar) :
  Eigen.rows matrix <> Eigen.cols matrix
  \/ Eigen.rows matrix <> Eigen.rows rhs ->
  failure_of (fst (ComputeMatrix matrix rhs w)) = Some ShapeMismatch
  /\ output (snd (ComputeMatrix matrix rhs w)) = output w
  /\ trace (snd (ComputeMatrix matrix rhs w)) = trace w.
Proof.
  intros Hbad. rewrite ComputeMatrix_cases.
  destruct (Eigen.rows matrix =? Eigen.cols matrix)%nat eqn:Hsq;
    cbn [negb]; [|now repeat split].
  destruct (Eigen.rows matrix =? Eigen.rows rhs)%nat eqn:Hrows;
    cbn [negb]; [|now repeat split].
  apply Nat.eqb_eq in Hsq, Hrows. destruct Hbad; contradiction.
Qed.

(** C6, as amended: for a square [matrix] without rows (0 x 0) and an [rhs]
    without rows, whatever its column count, [ComputeMatrix] succeeds, has
    no effect (no factorization is attempted, nothing is assigned), and
    leaves the output matrix, sized by the caller with the rows of
    [matrix], as the zero-row matrix it was. *)
Theorem ComputeMatrix_empty_system (matrix rhs : Matrix) (w : World Scalar) :
  Eigen.rows matrix = 0%nat ->
  Eigen.cols matrix = 0%nat ->
  Eigen.rows rhs = 0%nat ->
  fst (ComputeMatrix matrix rhs w) = Status_OK
  /\ output (snd (ComputeMatrix matrix rhs w)) = output w
  /\ trace (snd (ComputeMatrix matrix rhs w)) = trace w
  /\ (Eigen.rows (output w) = Eigen.rows matrix ->
      Eigen.rows (output (snd (ComputeMatrix matrix rhs w))) = 0%nat).
Proof.
  intros Hr Hc Hb. rewrite ComputeMatrix_cases, Hr, Hc, Hb.
  cbn. repeat split; auto.
Qed.

(** C7, as amended: let [matrix] be square.  If it has at least one row,
    [rhs] has as many rows, and the smallest absolute diagonal entry of
    its LU factors is not strictly greater than zero, [ComputeMatrix]
    fails with NotInvertible.  If that entry is strictly greater than
    zero, [ComputeMatrix] does not fail with NotInvertible, whatever [rhs]
    is. *)
Theorem ComputeMatrix_singularity_check
    (matrix rhs : Matrix) (w : World Scalar) :
  Eigen.rows matrix = Eigen.cols matrix ->
  (Eigen.rows matrix = Eigen.rows rhs ->
   Eigen.rows matrix <> 0%nat ->
   s_ltb s_zero (min_abs_pivot matrix) = false ->
   fst (ComputeMatrix matrix rhs w) = not_invertible
   /\ failure_of (fst (ComputeMatrix matrix rhs w)) = Some NotInvertible)
  /\ (s_ltb s_zero (min_abs_pivot matrix) = true ->
      failure_of (fst (ComputeMatrix matrix rhs w)) <> Some NotInvertible).
Proof.
  intros Hsq. rewrite ComputeMatrix_cases.
  apply Nat.eqb_eq in Hsq. rewrite Hsq. cbn [negb]. split.
  - intros Hrows Hne Hpiv.
    apply Nat.eqb_eq in Hrows. apply Nat.eqb_neq in Hne.
    rewrite Hrows, Hne, Hpiv. now split.
  - intros Hpiv. rewrite Hpiv.
    destruct (Eigen.rows matrix =? Eigen.rows rhs)%nat;
      [destruct (Eigen.rows matrix =? 0)%nat|]; cbn; discriminate.
Qed.

(** C10: whenever [ComputeMatrix] fails with NotInvertible, the output
    matrix is what it was before the call, and the only effect of the call
    is the factorization: the test of the pivot comes before the solve and
    before the assignment to the output. *)
Theorem ComputeMatrix_not_invertible_keeps_output
    (matrix rhs : Matrix) (w : World Scalar) :
  failure_of (fst (ComputeMatrix matrix rhs w)) = Some NotInvertible ->
  output (snd (ComputeMatrix matrix rhs w)) = output w
  /\ trace (snd (ComputeMatrix matrix rhs w)) = trace w ++ [EvFactorize].
Proof.
  rewrite ComputeMatrix_cases.
  destruct (Eigen.rows matrix =? Eigen.cols matrix)%nat;
    cbn [negb]; [|discriminate].
  destruct (Eigen.rows matrix =? Eigen.rows rhs)%nat;
    cbn [negb]; [|discriminate].
  destruct (Eigen.rows matrix =? 0)%nat; [discriminate|].
  destruct (s_ltb s_zero (min_abs_pivot matrix)); [discriminate|].
  intros _. now split.
Qed.

End SolveKernel.

(* ================================================================== *)
(** ** The kernel on concrete systems ([Scalar = double]) *)
(* ================================================================== *)

Section SolveKernelDouble.
Import MatrixSolveOp Samples.

(** A = [[2,0],[0,2]], B = [[4],[6]] gives X = [[2],[3]]. *)
Example solve_two_I :
  ComputeMatrix two_I b_4_6 (fresh 2 1)
  = (Status_OK,
     mkWorld (matrix_of [[2]; [3]]%float)
             [EvFactorize; EvSolve; EvAssignOutput]).
Proof. reflexivity. Qed.

(** A = [[1,2],[3,4]], B = identity gives the inverse [[-2,1],[1.5,-0.5]],
    up to rounding. *)
Example solve_inverse :
  fst (ComputeMatrix a_1234 identity2 (fresh 2 2)) = Status_OK
  /\ close_to 0x1p-50%float
       (output (snd (ComputeMatrix a_1234 identity2 (fresh 2 2))))
       (matrix_of [[-2; 1]; [1.5; -0.5]]%float) = true.
Proof. split; reflexivity. Qed.

(** The all-zero 2 x 2 matrix: its smallest absolute pivot is zero and the
    solve fails with NotInvertible. *)
Example zero2_not_invertible :
  min_abs_pivot zero2 = 0%float
  /\ fst (ComputeMatrix zero2 ones_2x1 (fresh 2 1)) = not_invertible.
Proof. split; reflexivity. Qed.

(** [[0,1],[0,1]]: the first pivot is an exact zero. *)
Example a_0101_not_invertible :
  min_abs_pivot a_0101 = 0%float
  /\ fst (ComputeMatrix a_0101 ones_2x1 (fresh 2 1)) = not_invertible.
Proof. split; reflexivity. Qed.

(** The pivot test sees rounded factors.  The entries of
    [[3, 1], [1, fl(1/3)]] are doubles and fl(1/3) = 6004799503160661 / 2^54,
    so its determinant is (3 * 6004799503160661 - 2^54) / 2^54 = -1 / 2^54:
    the matrix is invertible.  Its second pivot fl(1/3) - fl(1/3) * 1 is
    computed as an exact zero, and the solve fails with NotInvertible. *)
Example rounding_hides_invertibility :
  Prim2SF (Eigen.coeff near_singular 1 1)
  = S754_finite false 6004799503160661 (-54)
  /\ 3 * 6004799503160661 - 1 * 2 ^ 54 = -1
  /\ min_abs_pivot near_singular = 0%float
  /\ fst (ComputeMatrix near_singular ones_2x1 (fresh 2 1)) = not_invertible.
Proof. repeat split. Qed.

(** A 3 x 2 matrix with a right-hand side of three rows. *)
Lemma ComputeMatrix_shape_mismatch_witness :
  failure_of (fst (ComputeMatrix a_3x2 ones_3x1 (fresh 3 1))) = Some ShapeMismatch
  /\ output (snd (ComputeMatrix a_3x2 ones_3x1 (fresh 3 1))) = output (fresh 3 1)
  /\ trace (snd (ComputeMatrix a_3x2 ones_3x1 (fresh 3 1))) = trace (fresh 3 1).
Proof.
  apply (ComputeMatrix_shape_mismatch a_3x2 ones_3x1 (fresh 3 1)).
  left. cbn. lia.
Defined.

(** C6 as stated fails: a matrix without rows but with three columns is
    not square, and [ComputeMatrix] rejects it although [rhs] has no rows
    either. *)
Lemma ComputeMatrix_empty_rows_not_square :
  Eigen.rows (empty 3) = 0%nat
  /\ Eigen.rows (empty 1) = 0%nat
  /\ fst (ComputeMatrix (empty 3) (empty 1) (fresh 0 1)) = not_square
  /\ failure_of (fst (ComputeMatrix (empty 3) (empty 1) (fresh 0 1)))
     = Some ShapeMismatch.
Proof. repeat split. Qed.

(** The 0 x 0 matrix with a right-hand side of shape 0 x 3. *)
Lemma ComputeMatrix_empty_system_witness :
  fst (ComputeMatrix (empty 0) (empty 3) (fresh 0 3)) = Status_OK
  /\ output (snd (ComputeMatrix (empty 0) (empty 3) (fresh 0 3)))
     = output (fresh 0 3)
  /\ trace (snd (ComputeMatrix (empty 0) (empty 3) (fresh 0 3)))
     = trace (fresh 0 3)
  /\ (Eigen.rows (output (fresh 0 3)) = Eigen.rows (empty 0) ->
      Eigen.rows (output (snd (ComputeMatrix (empty 0) (empty 3) (fresh 0 3))))
      = 0%nat).
Proof.
  apply (ComputeMatrix_empty_system (empty 0) (empty 3) (fresh 0 3));
    reflexivity.
Defined.

(** C7 as stated fails: the all-zero 2 x 2 matrix is square and its
    smallest absolute pivot is zero, but against a right-hand side of
    three rows [ComputeMatrix] fails with the ShapeMismatch status of the
    row-count test, which comes before the factorization. *)
Lemma ComputeMatrix_zero_pivot_incompatible_rhs :
  Eigen.rows zero2 = Eigen.cols zero2
  /\ s_ltb s_zero (min_abs_pivot zero2) = false
  /\ fst (ComputeMatrix zero2 ones_3x1 (fresh 2 1)) = incompatible
  /\ failure_of (fst (ComputeMatrix zero2 ones_3x1 (fresh 2 1)))
     = Some ShapeMismatch.
Proof. repeat split. Qed.

(** The all-zero 2 x 2 matrix is rejected; 2 I is not. *)
Lemma ComputeMatrix_singularity_check_witness :
  (fst (ComputeMatrix zero2 ones_2x1 (fresh 2 1)) = not_invertible
   /\ failure_of (fst (ComputeMatrix zero2 ones_2x1 (fresh 2 1)))
      = Some NotInvertible)
  /\ failure_of (fst (ComputeMatrix two_I b_4_6 (fresh 2 1)))
     <> Some NotInvertible.
Proof.
  split.
  - apply (proj1 (ComputeMatrix_singularity_check
                    zero2 ones_2x1 (fresh 2 1) eq_refl)).
    + reflexivity.
    + cbn. lia.
    + reflexivity.
  - apply (proj2 (ComputeMatrix_singularity_check
                    two_I b_4_6 (fresh 2 1) eq_refl)).
    reflexivity.
Defined.

(** The all-zero 2 x 2 matrix, with an output matrix holding sevens. *)
Lemma ComputeMatrix_not_invertible_keeps_output_witness :
  output (snd (ComputeMatrix zero2 ones_2x1 (filled 2 1 7)))
  = output (filled 2 1 7)
  /\ trace (snd (ComputeMatrix zero2 ones_2x1 (filled 2 1 7)))
     = trace (filled 2 1 7) ++ [EvFactorize].
Proof.
  apply (ComputeMatrix_not_invertible_keeps_output
           zero2 ones_2x1 (filled 2 1 7)).
  reflexivity.
Defined.

End SolveKernelDouble.

(* ================================================================== *)
(** * Further properties of the three methods *)
(* ================================================================== *)

(** ** [GetOutputMatrixShape]: what a returned shape tells *)

Section ShapeResolverMore.
Import TensorShape MatrixSolveOp.

(** A returned shape comes from operands with the same, positive number
    of dimensions, and is the input with its last entry overwritten. *)
Lemma GetOutputMatrixShape_inv (input rhs out : TensorShape.t) :
  GetOutputMatrixShape input rhs = Value out ->
  dims input = dims rhs
  /\ 0 < dims input
  /\ out = update input (Z.to_nat (dims input - 1)) (last rhs 0).
Proof.
  unfold GetOutputMatrixShape, CHECK.
  destruct (dims input =? dims rhs) eqn:Hd; cbn [check_bind]; [|discriminate].
  apply Z.eqb_eq in Hd.
  unfold dim_size, set_dim.
  destruct (in_bounds rhs (dims input - 1)) eqn:Hb; cbn [check_bind];
    [|discriminate].
  destruct (in_bounds input (dims input - 1)) eqn:Hb'; [|discriminate].
  intros Hv. injection Hv as <-.
  unfold in_bounds in Hb'. apply andb_prop in Hb' as [Hlo _].
  apply Z.leb_le in Hlo.
  repeat split; [assumption | lia |].
  f_equal. rewrite Hd, last_index by lia. apply nth_last.
Qed.

Lemma GetOutputMatrixShape_value (input rhs : TensorShape.t) :
  dims input = dims rhs ->
  0 < dims input ->
  GetOutputMatrixShape input rhs
  = Value (update input (Z.to_nat (dims input - 1)) (last rhs 0)).
Proof.
  intros Hd Hpos. unfold GetOutputMatrixShape, CHECK.
  rewrite Hd, Z.eqb_refl. cbn [check_bind].
  rewrite dim_size_in_bounds by lia. cbn [check_bind].
  unfold set_dim. rewrite <- Hd, in_bounds_true by lia.
  do 2 f_equal. rewrite Hd, last_index by lia. apply nth_last.
Qed.

Lemma update_Forall (P : Z -> Prop) (s : TensorShape.t) (n : nat) (v : Z) :
  Forall P s -> P v -> Forall P (update s n v).
Proof.
  intros Hs Hv. revert n.
  induction Hs as [|x s Hx Hs IH]; intros [|n]; cbn [update];
    constructor; auto.
Qed.

Lemma update_update (s : TensorShape.t) (n : nat) (v v' : Z) :
  update (update s n v) n v' = update s n v'.
Proof.
  revert n. induction s as [|x s IH]; intros [|n]; cbn [update];
    [reflexivity .. |]. now rewrite IH.
Qed.

Lemma last_Forall (P : Z -> Prop) (s : TensorShape.t) :
  s <> [] -> Forall P s -> P (last s 0).
Proof.
  intros Hne Hs. rewrite Forall_forall in Hs. apply Hs.
  destruct (exists_last Hne) as [l [a ->]].
  rewrite last_last. apply in_or_app. right. now left.
Qed.

(** Well-formed operands give a well-formed shape: every dimension size of
    a returned shape is a non-negative [int64]. *)
Theorem GetOutputMatrixShape_well_formed (input rhs out : TensorShape.t) :
  well_formed input ->
  well_formed rhs ->
  GetOutputMatrixShape input rhs = Value out ->
  well_formed out.
Proof.
  intros Hi Hr Hout.
  apply GetOutputMatrixShape_inv in Hout as (Hd & Hpos & ->).
  apply update_Forall; [exact Hi|].
  apply last_Forall; [|exact Hr].
  apply shape_nonempty. lia.
Qed.

Lemma GetOutputMatrixShape_well_formed_witness : well_formed [5; 3; 7].
Proof.
  apply (GetOutputMatrixShape_well_formed [5; 3; 3] [5; 3; 7] [5; 3; 7]).
  - repeat constructor; int64_bounds.
  - repeat constructor; int64_bounds.
  - reflexivity.
Defined.

(** Resolving is idempotent: a returned shape, resolved again against the
    same rhs shape, is returned unchanged. *)
Theorem GetOutputMatrixShape_idempotent (input rhs out : TensorShape.t) :
  GetOutputMatrixShape input rhs = Value out ->
  GetOutputMatrixShape out rhs = Value out.
Proof.
  intros Hout.
  apply GetOutputMatrixShape_inv in Hout as (Hd & Hpos & ->).
  set (n := Z.to_nat (dims input - 1)).
  assert (Hlen : dims (update input n (last rhs 0)) = dims input)
    by (unfold dims; now rewrite update_length).
  rewrite GetOutputMatrixShape_value by lia.
  rewrite Hlen. fold n. now rewrite update_update.
Qed.

Lemma GetOutputMatrixShape_idempotent_witness :
  GetOutputMatrixShape [5; 3; 7] [5; 3; 7] = Value [5; 3; 7].
Proof.
  apply (GetOutputMatrixShape_idempotent [5; 3; 3] [5; 3; 7] [5; 3; 7]).
  reflexivity.
Defined.

(** Of the rhs shape only the number of dimensions and the last dimension
    are looked at: its leading (batch and row) dimensions are never
    compared with those of the input, and two rhs shapes that agree on
    those two give the same result, shape or failure. *)
Theorem GetOutputMatrixShape_only_last_rhs_dim
    (input rhs1 rhs2 : TensorShape.t) :
  dims rhs1 = dims rhs2 ->
  last rhs1 0 = last rhs2 0 ->
  GetOutputMatrixShape input rhs1 = GetOutputMatrixShape input rhs2.
Proof.
  intros Hd Hl.
  destruct (Z.eq_dec (dims input) (dims rhs1)) as [He | Hne].
  - destruct (Z.eq_dec (dims input) 0) as [Hz | Hnz].
    + assert (Hi : input = []) by
        (destruct input; [reflexivity | rewrite dims_cons in Hz;
                                        pose proof (dims_nonneg input); lia]).
      assert (H1 : rhs1 = []) by
        (destruct rhs1; [reflexivity | rewrite dims_cons in He;
                                       pose proof (dims_nonneg rhs1); lia]).
      assert (H2 : rhs2 = []) by
        (destruct rhs2; [reflexivity | rewrite dims_cons in Hd;
                                       pose proof (dims_nonneg rhs2); lia]).
      now subst.
    + pose proof (dims_nonneg input).
      rewrite !GetOutputMatrixShape_value by lia. now rewrite Hl.
  - unfold GetOutputMatrixShape, CHECK. rewrite <- Hd.
    apply Z.eqb_neq in Hne. now rewrite Hne.
Qed.

(** The rhs shapes [5,3,7] and [9,4,7] resolve alike against [5,3,3]. *)
Lemma GetOutputMatrixShape_only_last_rhs_dim_witness :
  GetOutputMatrixShape [5; 3; 3] [5; 3; 7]
  = GetOutputMatrixShape [5; 3; 3] [9; 4; 7].
Proof.
  apply (GetOutputMatrixShape_only_last_rhs_dim [5; 3; 3] [5; 3; 7] [9; 4; 7]);
    reflexivity.
Defined.

End ShapeResolverMore.

(** ** [GetCostPerUnit]: where the estimate is exact, and its order *)

Section CostEstimatorMore.
Import TensorShape MatrixSolveOp.

Lemma wrap_range (z : Z) : Int64.in_range (Int64.wrap z).
Proof.
  unfold Int64.wrap.
  pose proof (Z.mod_pos_bound (z + 2 ^ 63) (2 ^ 64) ltac:(lia)).
  int64_bounds.
Qed.

Lemma exact_cost_bound (rows rhss : Z) :
  0 <= rows <= 2 ^ 20 -> 0 <= rhss < 7 * 2 ^ 20 ->
  0 <= exact_cost rows rhss <= 2 ^ 40 * (2 ^ 23 - 1).
Proof.
  intros Hr Hc. unfold exact_cost. split; [nia|].
  apply Z.mul_le_mono_nonneg; nia.
Qed.

(** A system without equations costs nothing, whatever the number of
    right-hand sides recorded in the rhs shape. *)
Theorem GetCostPerUnit_zero_rows
    (input_matrix_shape rhs_matrix_shape : TensorShape.t) (rhss : Z) :
  dim_size input_matrix_shape 0 = Value 0 ->
  dim_size rhs_matrix_shape 1 = Value rhss ->
  GetCostPerUnit input_matrix_shape rhs_matrix_shape = Value 0.
Proof.
  intros Hrows Hrhss.
  rewrite (GetCostPerUnit_branches _ _ 0 rhss) by assumption.
  change (0 >? 2 ^ 20) with false. cbv iota. unfold Int64.mul.
  change (Int64.wrap (0 * 0)) with 0.
  now rewrite Z.mul_0_l.
Qed.

Lemma GetCostPerUnit_zero_rows_witness :
  GetCostPerUnit [0; 0] [0; 5] = Value 0.
Proof.
  apply (GetCostPerUnit_zero_rows [0; 0] [0; 5] 5); reflexivity.
Defined.

(** Up to the threshold, the estimate is the product
    [rows * rows * (rows + rhss)] exactly when that product fits in an
    [int64]: no overflow passes unnoticed as the right value. *)
Theorem GetCostPerUnit_exact_iff_fits
    (input_matrix_shape rhs_matrix_shape : TensorShape.t) (rows rhss : Z) :
  dim_size input_matrix_shape 0 = Value rows ->
  dim_size rhs_matrix_shape 1 = Value rhss ->
  0 <= rows <= 2 ^ 20 ->
  0 <= rhss ->
  GetCostPerUnit input_matrix_shape rhs_matrix_shape
  = Value (exact_cost rows rhss)
  <-> exact_cost rows rhss <= Int64.max_signed.
Proof.
  intros Hrows Hrhss Hr Hc. split.
  - rewrite (GetCostPerUnit_branches _ _ rows rhss) by assumption.
    replace (rows >? 2 ^ 20) with false
      by (symmetry; rewrite Z.gtb_ltb; apply Z.ltb_ge; lia).
    intros Hv. injection Hv as Hv. rewrite <- Hv. unfold Int64.mul at 1.
    apply wrap_range.
  - intros Hfit. now apply GetCostPerUnit_exact.
Qed.

Lemma GetCostPerUnit_exact_iff_fits_witness :
  GetCostPerUnit [3; 3] [3; 2] = Value (exact_cost 3 2)
  <-> exact_cost 3 2 <= Int64.max_signed.
Proof.
  apply (GetCostPerUnit_exact_iff_fits [3; 3] [3; 2] 3 2);
    [reflexivity | reflexivity | lia | lia].
Defined.

(** With at most 2^20 rows and fewer than 7 * 2^20 right-hand sides the
    estimate never overflows: it is the exact product, non-negative and
    below 2^63.  The bound on the right-hand sides cannot be raised: with
    2^20 rows and 7 * 2^20 right-hand sides the product is 2^63. *)
Theorem GetCostPerUnit_safe_domain
    (input_matrix_shape rhs_matrix_shape : TensorShape.t) (rows rhss : Z) :
  dim_size input_matrix_shape 0 = Value rows ->
  dim_size rhs_matrix_shape 1 = Value rhss ->
  0 <= rows <= 2 ^ 20 ->
  0 <= rhss < 7 * 2 ^ 20 ->
  GetCostPerUnit input_matrix_shape rhs_matrix_shape
  = Value (exact_cost rows rhss)
  /\ 0 <= exact_cost rows rhss <= Int64.max_signed
  /\ exact_cost (2 ^ 20) (7 * 2 ^ 20) = Int64.max_signed + 1.
Proof.
  intros Hrows Hrhss Hr Hc.
  pose proof (exact_cost_bound rows rhss Hr Hc) as Hb.
  assert (Hfit : exact_cost rows rhss <= Int64.max_signed) by int64_bounds.
  split; [|split].
  - apply GetCostPerUnit_exact; auto; lia.
  - lia.
  - reflexivity.
Qed.

Lemma GetCostPerUnit_safe_domain_witness :
  GetCostPerUnit [1000; 1000] [1000; 10] = Value (exact_cost 1000 10)
  /\ 0 <= exact_cost 1000 10 <= Int64.max_signed
  /\ exact_cost (2 ^ 20) (7 * 2 ^ 20) = Int64.max_signed + 1.
Proof.
  apply (GetCostPerUnit_safe_domain [1000; 1000] [1000; 10] 1000 10);
    [reflexivity | reflexivity | lia | lia].
Defined.

(** Two systems of 100 and of 200 rows, three right-hand sides each. *)
Lemma GetCostPerUnit_monotone_below_threshold_witness :
  exact_cost 100 3 <= exact_cost 200 3.
Proof.
  apply (GetCostPerUnit_monotone_below_threshold
           [100; 100] [200; 200] [100; 3] [200; 3] 100 200 3);
    try reflexivity; try lia.
  vm_compute. discriminate.
Defined.

(** For a fixed number of rows up to the threshold, more right-hand sides
    never cost less, as long as the larger product fits in an [int64]. *)
Theorem GetCostPerUnit_monotone_in_rhss
    (input_matrix_shape rhs1 rhs2 : TensorShape.t)
    (rows rhss1 rhss2 cost1 cost2 : Z) :
  dim_size input_matrix_shape 0 = Value rows ->
  dim_size rhs1 1 = Value rhss1 ->
  dim_size rhs2 1 = Value rhss2 ->
  0 <= rows <= 2 ^ 20 ->
  0 <= rhss1 <= rhss2 ->
  exact_cost rows rhss2 <= Int64.max_signed ->
  GetCostPerUnit input_matrix_shape rhs1 = Value cost1 ->
  GetCostPerUnit input_matrix_shape rhs2 = Value cost2 ->
  cost1 <= cost2.
Proof.
  intros Hrows H1 H2 Hr Hc Hfit Hc1 Hc2.
  assert (Hmono : exact_cost rows rhss1 <= exact_cost rows rhss2)
    by (unfold exact_cost; nia).
  rewrite (GetCostPerUnit_exact _ _ rows rhss1) in Hc1 by (auto; lia).
  rewrite (GetCostPerUnit_exact _ _ rows rhss2) in Hc2 by (auto; lia).
  injection Hc1 as <-. injection Hc2 as <-. exact Hmono.
Qed.

Lemma GetCostPerUnit_monotone_in_rhss_witness :
  exact_cost 100 1 <= exact_cost 100 8.
Proof.
  apply (GetCostPerUnit_monotone_in_rhss
           [100; 100] [100; 1] [100; 8] 100 1 8);
    try reflexivity; try lia.
  vm_compute. discriminate.
Defined.

(** From 1291 rows up to the threshold every estimate that does not
    overflow is larger than the value returned above the threshold. *)
Theorem GetCostPerUnit_exceeds_cap_from_1291
    (input_matrix_shape rhs_matrix_shape : TensorShape.t)
    (rows rhss cost : Z) :
  dim_size input_matrix_shape 0 = Value rows ->
  dim_size rhs_matrix_shape 1 = Value rhss ->
  1291 <= rows <= 2 ^ 20 ->
  0 <= rhss ->
  exact_cost rows rhss <= Int64.max_signed ->
  GetCostPerUnit input_matrix_shape rhs_matrix_shape = Value cost ->
  kint32max < cost.
Proof.
  intros Hrows Hrhss Hr Hc Hfit Hcost.
  rewrite (GetCostPerUnit_exact _ _ rows rhss) in Hcost by (auto; lia).
  injection Hcost as <-.
  assert (H3 : 1291 * 1291 * 1291 <= exact_cost rows rhss).
  { unfold exact_cost. apply Z.mul_le_mono_nonneg; nia. }
  unfold kint32max. lia.
Qed.

Lemma GetCostPerUnit_exceeds_cap_from_1291_witness :
  kint32max < exact_cost 2000 4.
Proof.
  apply (GetCostPerUnit_exceeds_cap_from_1291
           [2000; 2000] [2000; 4] 2000 4);
    try reflexivity; try lia.
  vm_compute. discriminate.
Defined.

End CostEstimatorMore.

(** ** [ComputeMatrix]: success, failure and effects as a whole *)

Section SolveKernelMore.
Context {Scalar : Type} `{ScalarOps Scalar} `{Eigen.PartialPivLU Scalar}.
Import MatrixSolveOp.

Local Abbreviation Matrix := (Eigen.Matrix Scalar).

(** [ComputeMatrix] succeeds exactly when [matrix] is square, [rhs] has as
    many rows, and either there are no rows or the smallest absolute pivot
    of the factorization is strictly positive. *)
Theorem ComputeMatrix_succeeds_iff (matrix rhs : Matrix) (w : World Scalar) :
  fst (ComputeMatrix matrix rhs w) = Status_OK
  <-> Eigen.rows matrix = Eigen.cols matrix
      /\ Eigen.rows matrix = Eigen.rows rhs
      /\ (Eigen.rows matrix = 0%nat
          \/ s_ltb s_zero (min_abs_pivot matrix) = true).
Proof.
  rewrite ComputeMatrix_cases.
  destruct (Eigen.rows matrix =? Eigen.cols matrix)%nat eqn:Hsq; cbn [negb].
  2: { apply Nat.eqb_neq in Hsq. split; [discriminate | tauto]. }
  destruct (Eigen.rows matrix =? Eigen.rows rhs)%nat eqn:Hrows; cbn [negb].
  2: { apply Nat.eqb_neq in Hrows. split; [discriminate | tauto]. }
  apply Nat.eqb_eq in Hsq, Hrows.
  destruct (Eigen.rows matrix =? 0)%nat eqn:Hz.
  { apply Nat.eqb_eq in Hz. cbn [fst]. tauto. }
  apply Nat.eqb_neq in Hz.
  destruct (s_ltb s_zero (min_abs_pivot matrix)); cbn [fst].
  - tauto.
  - split; [discriminate|]. intros (_ & _ & [Hr | Hp]); [tauto | discriminate].
Qed.

(** Whatever the failure, the output matrix is left as it was; at most the
    factorization has been carried out, never a solve or an assignment. *)
Theorem ComputeMatrix_failure_keeps_output
    (matrix rhs : Matrix) (w : World Scalar) :
  fst (ComputeMatrix matrix rhs w) <> Status_OK ->
  output (snd (ComputeMatrix matrix rhs w)) = output w
  /\ (trace (snd (ComputeMatrix matrix rhs w)) = trace w
      \/ trace (snd (ComputeMatrix matrix rhs w)) = trace w ++ [EvFactorize]).
Proof.
  rewrite ComputeMatrix_cases.
  destruct (Eigen.rows matrix =? Eigen.cols matrix)%nat;
    cbn [negb]; [|now auto].
  destruct (Eigen.rows matrix =? Eigen.rows rhs)%nat;
    cbn [negb]; [|now auto].
  destruct (Eigen.rows matrix =? 0)%nat; [now auto|].
  destruct (s_ltb s_zero (min_abs_pivot matrix)); cbn [fst snd output trace].
  - intros Hne. now contradiction Hne.
  - now auto.
Qed.

(** The effects of a call, in order: nothing; or one factorization; or one
    factorization, then one solve, then the assignment to the output,
    which happens only when the call succeeds and then stores the
    solution of the factorization. *)
Theorem ComputeMatrix_effects (matrix rhs : Matrix) (w : World Scalar) :
  trace (snd (ComputeMatrix matrix rhs w)) = trace w
  \/ trace (snd (ComputeMatrix matrix rhs w)) = trace w ++ [EvFactorize]
  \/ (trace (snd (ComputeMatrix matrix rhs w))
      = trace w ++ [EvFactorize; EvSolve; EvAssignOutput]
      /\ fst (ComputeMatrix matrix rhs w) = Status_OK
      /\ output (snd (ComputeMatrix matrix rhs w))
         = Eigen.solve (Eigen.compute matrix) rhs).
Proof.
  rewrite ComputeMatrix_cases.
  destruct (Eigen.rows matrix =? Eigen.cols matrix)%nat;
    cbn [negb]; [|now left].
  destruct (Eigen.rows matrix =? Eigen.rows rhs)%nat;
    cbn [negb]; [|now left].
  destruct (Eigen.rows matrix =? 0)%nat; [now left|].
  destruct (s_ltb s_zero (min_abs_pivot matrix)); cbn [fst snd output trace].
  - right. right. now repeat split.
  - right. now left.
Qed.

(** The test for a square matrix comes first: a matrix that is not square
    is reported as such, also when the row count of [rhs] is wrong too. *)
Theorem ComputeMatrix_not_square_first
    (matrix rhs : Matrix) (w : World Scalar) :
  Eigen.rows matrix <> Eigen.cols matrix ->
  fst (ComputeMatrix matrix rhs w) = not_square.
Proof.
  intros Hsq. rewrite ComputeMatrix_cases.
  apply Nat.eqb_neq in Hsq. now rewrite Hsq.
Qed.

(** The output matrix is written, never read: the status of a call does
    not depend on what the output held before, and when a system with at
    least one row is solved, neither does the output afterwards. *)
Theorem ComputeMatrix_ignores_prior_output
    (matrix rhs : Matrix) (w1 w2 : World Scalar) :
  fst (ComputeMatrix matrix rhs w1) = fst (ComputeMatrix matrix rhs w2)
  /\ (Eigen.rows matrix <> 0%nat ->
      fst (ComputeMatrix matrix rhs w1) = Status_OK ->
      output (snd (ComputeMatrix matrix rhs w1))
      = output (snd (ComputeMatrix matrix rhs w2))).
Proof.
  rewrite !ComputeMatrix_cases.
  destruct (Eigen.rows matrix =? Eigen.cols matrix)%nat;
    cbn [negb]; [|split; [reflexivity | discriminate]].
  destruct (Eigen.rows matrix =? Eigen.rows rhs)%nat;
    cbn [negb]; [|split; [reflexivity | discriminate]].
  destruct (Eigen.rows matrix =? 0)%nat eqn:Hz.
  { apply Nat.eqb_eq in Hz. split; [reflexivity | tauto]. }
  destruct (s_ltb s_zero (min_abs_pivot matrix)); cbn [fst snd output].
  - now split.
  - split; [reflexivity | discriminate].
Qed.

(** Calling the kernel again on the same operands changes nothing more:
    the second call leaves the same status and the same output matrix. *)
Theorem ComputeMatrix_twice (matrix rhs : Matrix) (w : World Scalar) :
  fst (ComputeMatrix matrix rhs (snd (ComputeMatrix matrix rhs w)))
  = fst (ComputeMatrix matrix rhs w)
  /\ output (snd (ComputeMatrix matrix rhs (snd (ComputeMatrix matrix rhs w))))
     = output (snd (ComputeMatrix matrix rhs w)).
Proof.
  rewrite (ComputeMatrix_cases matrix rhs w).
  destruct (Eigen.rows matrix =? Eigen.cols matrix)%nat eqn:Hsq; cbn [negb].
  2: { cbn [snd]. rewrite ComputeMatrix_cases, Hsq. now split. }
  destruct (Eigen.rows matrix =? Eigen.rows rhs)%nat eqn:Hrows; cbn [negb].
  2: { cbn [snd]. rewrite ComputeMatrix_cases, Hsq, Hrows. now split. }
  destruct (Eigen.rows matrix =? 0)%nat eqn:Hz.
  { cbn [snd]. rewrite ComputeMatrix_cases, Hsq, Hrows, Hz. now split. }
  destruct (s_ltb s_zero (min_abs_pivot matrix)) eqn:Hp;
    cbn [snd]; rewrite ComputeMatrix_cases, Hsq, Hrows, Hz, Hp; now split.
Qed.

End SolveKernelMore.

Section SolveKernelMoreDouble.
Import MatrixSolveOp Samples.

(** The all-zero 2 x 2 matrix, with an output matrix holding sevens. *)
Lemma ComputeMatrix_failure_keeps_output_witness :
  output (snd (ComputeMatrix zero2 ones_2x1 (filled 2 1 7)))
  = output (filled 2 1 7)
  /\ (trace (snd (ComputeMatrix zero2 ones_2x1 (filled 2 1 7)))
      = trace (filled 2 1 7)
      \/ trace (snd (ComputeMatrix zero2 ones_2x1 (filled 2 1 7)))
         = trace (filled 2 1 7) ++ [EvFactorize]).
Proof.
  apply (ComputeMatrix_failure_keeps_output zero2 ones_2x1 (filled 2 1 7)).
  vm_compute. discriminate.
Defined.

(** A 3 x 2 matrix against a right-hand side of two rows. *)
Lemma ComputeMatrix_not_square_first_witness :
  fst (ComputeMatrix a_3x2 ones_2x1 (fresh 3 1)) = not_square.
Proof.
  apply (ComputeMatrix_not_square_first a_3x2 ones_2x1 (fresh 3 1)).
  cbn. lia.
Defined.

End SolveKernelMoreDouble.

(* ================================================================== *)
(** ** [ComputeMatrix]: what a successful solve delivers *)
(* ================================================================== *)

Section SolveStep.
Context {Scalar : Type} `{ScalarOps Scalar} `{Eigen.PartialPivLU Scalar}.
Import MatrixSolveOp.

Local Abbreviation Matrix := (Eigen.Matrix Scalar).


End SolveStep.

Section SolveStepDouble.
Import MatrixSolveOp Samples.



End SolveStepDouble.
